(** * FanAccessory: the fan state cache and its two directions of traffic

    A shallow embedding of [src/FanAccessory.ts].  The accessory keeps a
    cached copy of the fan's state ([fanState]), turns HomeKit "set" requests
    into control frames written on a shared websocket, and folds the frames
    that arrive on that websocket back into the cache.

    Conventions of the embedding.
    - JavaScript numbers are the mathematical integers, extended with the
      three values [NaN], [Infinity] and [-Infinity] that a division by a
      zero [MaxSpeed] produces.  Rounding of doubles is not modelled, and
      neither is the sign of zero.
    - A value read out of a parsed frame is untyped in the source; here it
      is a boolean or an integer ([jvalue]), the two shapes the protocol
      carries.
    - [ws.send] appends a frame to the list of frames written by the call;
      [JSON.stringify] is the identity on the frame's structure and
      [Date.now()] is an argument of the handler.
    - [platform.log.debug] has no effect on the cache or on the socket and
      is left out. *)

From Stdlib Require Import ZArith String List Bool Lia.
Import ListNotations.

Local Open Scope Z_scope.
Local Open Scope string_scope.

(** ** JavaScript values *)

Inductive jvalue : Type :=
| JBool (b : bool)
| JNum (n : Z).

(** [Boolean(value)] *)
Definition Boolean (value : jvalue) : bool :=
  match value with
  | JBool b => b
  | JNum n => negb (n =? 0)%Z
  end.

(** The numeric coercion applied by [*] to its operands. *)
Definition toNumber (value : jvalue) : Z :=
  match value with
  | JBool true => 1
  | JBool false => 0
  | JNum n => n
  end.

(** [a === b] *)
Definition strict_eq (a b : jvalue) : bool :=
  match a, b with
  | JBool x, JBool y => Bool.eqb x y
  | JNum x, JNum y => (x =? y)%Z
  | _, _ => false
  end.

Inductive number : Type :=
| Fin (z : Z)
| NaN
| PosInf
| NegInf.

(** [a === b] on numbers: [NaN] equals nothing, itself included. *)
Definition number_strict_eq (a b : number) : bool :=
  match a, b with
  | Fin x, Fin y => (x =? y)%Z
  | PosInf, PosInf => true
  | NegInf, NegInf => true
  | _, _ => false
  end.

(** [x * m] for an integer [m]. *)
Definition times (x : number) (m : Z) : number :=
  match x with
  | Fin z => Fin (z * m)
  | NaN => NaN
  | PosInf => if (0 <? m)%Z then PosInf else if (m <? 0)%Z then NegInf else NaN
  | NegInf => if (0 <? m)%Z then NegInf else if (m <? 0)%Z then PosInf else NaN
  end.

(** The least integer that is not below [n / d], for [d <> 0]. *)
Definition ceil_div (n d : Z) : Z := - ((- n) / d).

(** [Math.ceil(x / d)] for an integer [d]. *)
Definition Math_ceil_quot (x : number) (d : Z) : number :=
  match x with
  | Fin z =>
      if (d =? 0)%Z
      then (if (0 <? z)%Z then PosInf else if (z <? 0)%Z then NegInf else NaN)
      else Fin (ceil_div z d)
  | NaN => NaN
  | PosInf => if (d <? 0)%Z then NegInf else PosInf
  | NegInf => if (d <? 0)%Z then PosInf else NegInf
  end.

(** ** The cache *)

Record fanState : Type := mkFanState {
  On : jvalue;
  Speed : number;
  Swing : jvalue;
  MaxSpeed : Z
}.

Definition set_On (v : jvalue) (st : fanState) : fanState :=
  {| On := v; Speed := Speed st; Swing := Swing st; MaxSpeed := MaxSpeed st |}.

Definition set_Speed (v : number) (st : fanState) : fanState :=
  {| On := On st; Speed := v; Swing := Swing st; MaxSpeed := MaxSpeed st |}.

Definition set_Swing (v : jvalue) (st : fanState) : fanState :=
  {| On := On st; Speed := Speed st; Swing := v; MaxSpeed := MaxSpeed st |}.

(** The field initialiser of the class. *)
Definition fanState_init : fanState :=
  {| On := JBool false; Speed := Fin 1; Swing := JBool false; MaxSpeed := 1 |}.

(** ** Frames on the wire *)

(** An object literal, as the list of its properties in enumeration order. *)
Definition object : Type := list (string * jvalue).

(** [o[key]]: [None] stands for [undefined]. *)
Fixpoint get (key : string) (o : object) : option jvalue :=
  match o with
  | [] => None
  | (k, v) :: rest => if String.eqb k key then Some v else get key rest
  end.

(** [Object.keys(o)] *)
Definition Object_keys (o : object) : list string := map fst o.

(** The frame handed to [ws.send]. *)
Record ControlMessage : Type := mkControl {
  devicesn : string;
  method : string;
  params : object;
  timestamp : Z
}.

(** What [JSON.parse] makes of an incoming frame that is a JSON object.  A
    property that is absent, or whose value is not a string, is [None] for
    [devicesn] and [method]; [reported] is [None] when the property is absent
    or [null]. *)
Record data : Type := mkData {
  data_devicesn : option string;
  data_method : option string;
  data_reported : option object
}.

(** The event given to the listener, by the result of [JSON.parse] on its
    text: a syntax error, the value [null], or an object. *)
Inductive MessageEvent : Type :=
| Unparseable
| ParsedNull
| Parsed (d : data).

Inductive exn : Type :=
| SyntaxError
| TypeError.

(** How a run of the listener ends, and the cache it leaves behind. *)
Inductive outcome : Type :=
| Return (st : fanState)
| Throw (e : exn) (st : fanState).

Definition cache_of (o : outcome) : fanState :=
  match o with
  | Return st => st
  | Throw _ st => st
  end.

Definition returns (o : outcome) : bool :=
  match o with
  | Return _ => true
  | Throw _ _ => false
  end.

(** [a === s] for a property that may be missing and a string [s]. *)
Definition is_string (a : option string) (s : string) : bool :=
  match a with
  | Some x => String.eqb x s
  | None => false
  end.

Section Accessory.

(** [accessory.context.device.sn] *)
Variable sn : string.

(** *** Consumer to device *)

Definition handleActiveSet (now : Z) (value : jvalue) (st : fanState)
  : fanState * list ControlMessage :=
  if negb (strict_eq (On st) (JBool (Boolean value)))
  then (st, [ {| devicesn := sn;
                 method := "control";
                 params := [("poweron", JBool (Boolean value))];
                 timestamp := now |} ])
  else (st, []).

Definition handleActiveGet (st : fanState) : jvalue := On st.

(** The chain of range tests applied to [converted]. *)
Definition snap (converted : Z) : Z :=
  if (10 <? converted)%Z && (converted <=? 30)%Z then 20
  else if (30 <? converted)%Z && (converted <=? 50)%Z then 40
  else if (50 <? converted)%Z && (converted <=? 70)%Z then 60
  else if (70 <? converted)%Z && (converted <=? 90)%Z then 80
  else if (90 <? converted)%Z && (converted <=? 100)%Z then 100
  else converted.

Definition setRotationSpeed (now : Z) (value : Z) (st : fanState)
  : fanState * list ControlMessage :=
  let curr := Math_ceil_quot (times (Speed st) (MaxSpeed st)) 100 in
  let converted := snap (ceil_div (value * MaxSpeed st) 100) in
  let sent :=
    if negb (number_strict_eq curr (Fin converted))
    then
      if negb (converted =? 0)%Z
      then [ {| devicesn := sn;
                method := "control";
                params := [("poweron", JBool true);
                           ("windlevel", JNum converted)];
                timestamp := now |} ]
      else []
    else [] in
  (set_Speed (Fin value) st, sent).

Definition getRotationSpeed (st : fanState) : number := Speed st.

Definition setSwingMode (now : Z) (value : jvalue) (st : fanState)
  : fanState * list ControlMessage :=
  (st, [ {| devicesn := sn;
            method := "control";
            params := [("shakehorizon", JBool (Boolean value))];
            timestamp := now |} ]).

Definition getSwingMode (st : fanState) : jvalue := Swing st.

(** *** Device to consumer *)

(** The test on [data.method] that guards the [switch]. *)
Definition is_update (m : option string) : bool :=
  is_string m "control-report" || is_string m "control-reply"
  || is_string m "report".

(** The [switch] on [Object.keys(data.reported)[0]].  In the case for a
    key, [v] is the value [data.reported] holds under that key. *)
Definition apply_reported (m : option string) (reported : object)
           (st : fanState) : fanState :=
  match reported with
  | [] => st
  | (key, v) :: _ =>
      if String.eqb key "poweron" then set_On v st
      else if String.eqb key "windlevel" then
        if is_string m "report"
        then set_Speed
               (Math_ceil_quot (Fin (toNumber v * 100)) (MaxSpeed st)) st
        else st
      else if String.eqb key "shakehorizon" then set_Swing v st
      else st
  end.

(** The listener registered on the websocket's [message] event. *)
Definition listener (message : MessageEvent) (st : fanState) : outcome :=
  match message with
  | Unparseable => Throw SyntaxError st
  | ParsedNull => Throw TypeError st
  | Parsed d =>
      if is_string (data_devicesn d) sn then
        if is_update (data_method d) then
          match data_reported d with
          | None => Throw TypeError st
          | Some reported => Return (apply_reported (data_method d) reported st)
          end
        else Return st
      else Return st
  end.

End Accessory.


(** ** Vocabulary of the statements *)

(** A cached speed that is an integer between 0 and 100. *)
Definition is_percent (s : number) : bool :=
  match s with
  | Fin z => (0 <=? z)%Z && (z <=? 100)%Z
  | _ => false
  end.

(** The level a frame reports first, when there is one, lies between 0 and
    [M]. *)
Definition level_within (M : Z) (message : MessageEvent) : bool :=
  match message with
  | Parsed d =>
      match data_reported d with
      | Some ((key, v) :: _) =>
          if String.eqb key "windlevel"
          then (0 <=? toNumber v)%Z && (toNumber v <=? M)%Z
          else true
      | _ => true
      end
  | _ => true
  end.

(** A frame that is not the JSON text of an object, or an object without a
    [reported] object. *)
Definition malformed (message : MessageEvent) : bool :=
  match message with
  | Unparseable => true
  | ParsedNull => true
  | Parsed d =>
      match data_reported d with
      | None => true
      | Some _ => false
      end
  end.

(** The frames on which a step of the listener fails: text that does not
    parse, [null], and an update for this accessory without [reported]. *)
Definition raises (sn : string) (message : MessageEvent) : bool :=
  match message with
  | Unparseable => true
  | ParsedNull => true
  | Parsed d =>
      is_string (data_devicesn d) sn && is_update (data_method d)
      && match data_reported d with
         | None => true
         | Some _ => false
         end
  end.

(** A fan with six levels, switched on, at 17 percent, not oscillating. *)
Definition fan6 : fanState :=
  {| On := JBool true; Speed := Fin 17; Swing := JBool false; MaxSpeed := 6 |}.

(** ** Construction *)

Definition set_MaxSpeed (v : Z) (st : fanState) : fanState :=
  {| On := On st; Speed := Speed st; Swing := Swing st; MaxSpeed := v |}.

(** The state loaded from the Dreo servers, as far as the constructor reads
    it: [state.poweron.state], [state.windlevel.state], and
    [state.shakehorizon.state] when [state.shakehorizon] is defined. *)
Record snapshot : Type := mkSnapshot {
  poweron : jvalue;
  windlevel : jvalue;
  shakehorizon : option jvalue
}.

(** The assignments the constructor makes to [fanState], in their order;
    [maxSpeed] is the text read from the device's control configuration. *)
Definition constructor (maxSpeed : Z) (state : snapshot) : fanState :=
  let st := set_MaxSpeed maxSpeed fanState_init in
  let st := set_On (poweron state) st in
  let st :=
    set_Speed (Math_ceil_quot (Fin (toNumber (windlevel state) * 100))
                              (MaxSpeed st)) st in
  match shakehorizon state with
  | Some swing => set_Swing swing st
  | None => st
  end.

(** ** Sequences of calls *)

(** One call of a registered handler by HomeKit, or one frame delivered to
    the listener.  Every handler runs to its end before the next starts. *)
Inductive call : Type :=
| ActiveSet (now : Z) (value : jvalue)
| RotationSpeedSet (now : Z) (value : Z)
| SwingModeSet (now : Z) (value : jvalue)
| Incoming (message : MessageEvent).

Definition is_incoming (c : call) : bool :=
  match c with
  | Incoming _ => true
  | _ => false
  end.

(** A frame that names a serial other than [sn], or none. *)
Definition for_other (sn : string) (c : call) : bool :=
  match c with
  | Incoming (Parsed d) => negb (is_string (data_devicesn d) sn)
  | _ => false
  end.

(** The cache after a call and the frames the call wrote.  The listener
    writes nothing; when it throws, the cache is the one it leaves. *)
Definition step (sn : string) (c : call) (st : fanState)
  : fanState * list ControlMessage :=
  match c with
  | ActiveSet now value => handleActiveSet sn now value st
  | RotationSpeedSet now value => setRotationSpeed sn now value st
  | SwingModeSet now value => setSwingMode sn now value st
  | Incoming message => (cache_of (listener sn message st), [])
  end.

Fixpoint run (sn : string) (calls : list call) (st : fanState)
  : fanState * list ControlMessage :=
  match calls with
  | [] => (st, [])
  | c :: rest =>
      let after := step sn c st in
      let later := run sn rest (fst after) in
      (fst later, (snd after ++ snd later)%list)
  end.

(** The first key of an object is one of [keys]. *)
Definition first_key_in (keys : list string) (o : object) : bool :=
  match hd_error (Object_keys o) with
  | Some k => existsb (String.eqb k) keys
  | None => false
  end.

(** The three shapes of [params] the handlers build. *)
Definition control_params (p : object) : Prop :=
  (exists b, p = [("poweron", JBool b)])
  \/ (exists level, level <> 0
                    /\ p = [("poweron", JBool true); ("windlevel", JNum level)])
  \/ (exists b, p = [("shakehorizon", JBool b)]).

(** Two caches that agree on everything but the speed. *)
Definition same_flags (a b : fanState) : Prop :=
  On a = On b /\ Swing a = Swing b /\ MaxSpeed a = MaxSpeed b.

(** * Properties *)

(** ** Arithmetic of the level scale *)

Lemma ceil_div_bounds (n d : Z) :
  0 < d -> (ceil_div n d - 1) * d < n <= ceil_div n d * d.
Proof.
  intros Hd. unfold ceil_div.
  pose proof (Z.div_mod (- n) d ltac:(lia)) as Heq.
  pose proof (Z.mod_pos_bound (- n) d Hd) as Hr.
  nia.
Qed.

Lemma ceil_div_unique (n d c : Z) :
  0 < d -> (c - 1) * d < n <= c * d -> c = ceil_div n d.
Proof.
  intros Hd Hc. pose proof (ceil_div_bounds n d Hd) as Hb. nia.
Qed.

Lemma ceil_div_mono (n m d : Z) :
  0 < d -> n <= m -> ceil_div n d <= ceil_div m d.
Proof.
  intros Hd Hnm.
  pose proof (ceil_div_bounds n d Hd). pose proof (ceil_div_bounds m d Hd).
  nia.
Qed.

Lemma snap_zero (converted : Z) : snap converted = 0 <-> converted = 0.
Proof.
  unfold snap.
  repeat match goal with
         | |- context [if ?b then _ else _] => destruct b eqn:?
         end; lia.
Qed.

Lemma snap_fixed (converted : Z) :
  In converted [20; 40; 60; 80; 100] -> snap converted = converted.
Proof.
  simpl. intros [<- | [<- | [<- | [<- | [<- | []]]]]]; reflexivity.
Qed.

(** ** Property access on the head of an object *)

Lemma get_first (key : string) (v : jvalue) (rest : object) :
  hd_error (Object_keys ((key, v) :: rest)) = Some key
  /\ get key ((key, v) :: rest) = Some v.
Proof.
  split; [reflexivity |]. simpl. now rewrite String.eqb_refl.
Qed.

Lemma is_string_true (a : option string) (s : string) :
  is_string a s = true <-> a = Some s.
Proof.
  destruct a as [x |]; simpl.
  - rewrite String.eqb_eq. split; congruence.
  - split; discriminate.
Qed.

Lemma is_string_false (a : option string) (s : string) :
  is_string a s = false <-> a <> Some s.
Proof.
  rewrite <- is_string_true. destruct (is_string a s); split; congruence.
Qed.

(** ** Consumer to device *)

(** What one call of [setRotationSpeed] can write on the socket: nothing, or
    a single control frame that carries the snapped level. *)
Lemma setRotationSpeed_sent (sn : string) (now value : Z) (st : fanState) :
  let converted := snap (ceil_div (value * MaxSpeed st) 100) in
  snd (setRotationSpeed sn now value st) = []
  \/ (converted <> 0
      /\ snd (setRotationSpeed sn now value st) =
         [ {| devicesn := sn; method := "control";
              params := [("poweron", JBool true); ("windlevel", JNum converted)];
              timestamp := now |} ]).
Proof.
  unfold setRotationSpeed; simpl.
  destruct (number_strict_eq _ _); simpl; [now left |].
  destruct (Z.eqb_spec (snap (ceil_div (value * MaxSpeed st) 100)) 0) as [E | E];
    simpl; [now left | right; now split].
Qed.

(** The three ways a call goes: a frame is written, the write is skipped
    because the level did not change, the write is skipped because the
    level is zero. *)
Example setRotationSpeed_writes :
  snd (setRotationSpeed "SN" 0 100 fan6)
  = [ mkControl "SN" "control" [("poweron", JBool true); ("windlevel", JNum 6)] 0 ].
Proof. reflexivity. Qed.

Example setRotationSpeed_skips_same_level :
  setRotationSpeed "SN" 0 30 fan6
  = (mkFanState (JBool true) (Fin 30) (JBool false) 6, []).
Proof. reflexivity. Qed.

Example setRotationSpeed_skips_zero :
  setRotationSpeed "SN" 0 0 fan6
  = (mkFanState (JBool true) (Fin 0) (JBool false) 6, []).
Proof. reflexivity. Qed.

(** C1.  Whatever integer percent is requested, and whatever the call wrote
    on the socket (a frame, or nothing because the level was unchanged or
    zero), the cached speed after [setRotationSpeed] is the requested value
    itself; the other three fields of the cache keep their values. *)
Theorem setRotationSpeed_caches_requested_value
        (sn : string) (now value : Z) (st : fanState) :
  let st' := fst (setRotationSpeed sn now value st) in
  Speed st' = Fin value
  /\ On st' = On st /\ Swing st' = Swing st /\ MaxSpeed st' = MaxSpeed st.
Proof.
  unfold setRotationSpeed; simpl. repeat split.
Qed.

(** C3.  With a maximum level of 6 and a cached speed of 17, a request for
    50 computes level 3, which no range test changes; exactly one control
    frame goes out, with parameters poweron = true and windlevel = 3, and
    the cached speed becomes 50. *)
Theorem setRotationSpeed_scenario_6_17_50
        (sn : string) (now : Z) (on swing : jvalue) :
  ceil_div (50 * 6) 100 = 3
  /\ snap 3 = 3
  /\ setRotationSpeed sn now 50 (mkFanState on (Fin 17) swing 6)
     = (mkFanState on (Fin 50) swing 6,
        [ {| devicesn := sn; method := "control";
             params := [("poweron", JBool true); ("windlevel", JNum 3)];
             timestamp := now |} ]).
Proof.
  repeat split.
Qed.

(** C6.  No frame written by [setRotationSpeed] carries windlevel 0: every
    frame it writes holds a nonzero integer under windlevel, and a call whose
    snapped level is 0 writes nothing. *)
Theorem setRotationSpeed_never_sends_level_zero
        (sn : string) (now value : Z) (st : fanState) (m : ControlMessage)
        (Hm : In m (snd (setRotationSpeed sn now value st))) :
  (exists level, get "windlevel" (params m) = Some (JNum level) /\ level <> 0)
  /\ snap (ceil_div (value * MaxSpeed st) 100) <> 0.
Proof.
  destruct (setRotationSpeed_sent sn now value st) as [E | [Hnz E]];
    rewrite E in Hm; simpl in Hm.
  - contradiction.
  - destruct Hm as [<- | []]. split; [| exact Hnz].
    eexists. split; [reflexivity | exact Hnz].
Qed.

Lemma setRotationSpeed_never_sends_level_zero_witness :
  In (mkControl "SN" "control"
                [("poweron", JBool true); ("windlevel", JNum 3)] 0)
     (snd (setRotationSpeed "SN" 0 50 fan6))
  /\ (exists level,
        get "windlevel"
            (params (mkControl "SN" "control"
                               [("poweron", JBool true); ("windlevel", JNum 3)] 0))
        = Some (JNum level) /\ level <> 0)
  /\ snap (ceil_div (50 * MaxSpeed fan6) 100) <> 0.
Proof.
  split.
  - simpl. left. reflexivity.
  - apply (setRotationSpeed_never_sends_level_zero "SN" 0 50 fan6).
    simpl. left. reflexivity.
Defined.

(** A snapped level of 0 keeps the socket silent. *)
Lemma setRotationSpeed_zero_level_silent
      (sn : string) (now value : Z) (st : fanState) :
  snap (ceil_div (value * MaxSpeed st) 100) = 0 ->
  snd (setRotationSpeed sn now value st) = [].
Proof.
  intros H. destruct (setRotationSpeed_sent sn now value st) as [E | [Hnz _]].
  - exact E.
  - simpl in Hnz. contradiction.
Qed.

(** C4.  A power request that agrees with the cached power writes nothing on
    the socket and leaves the cache as it was; and no call of
    [handleActiveSet], whatever it is asked, changes the cache. *)
Theorem handleActiveSet_duplicate_is_silent
        (sn : string) (now : Z) (value : jvalue) (st : fanState)
        (Hsame : On st = JBool (Boolean value)) :
  handleActiveSet sn now value st = (st, [])
  /\ forall now' value' st', fst (handleActiveSet sn now' value' st') = st'.
Proof.
  split.
  - unfold handleActiveSet. rewrite Hsame. simpl.
    now rewrite Bool.eqb_reflx.
  - intros now' value' st'. unfold handleActiveSet.
    now destruct (negb _).
Qed.

Lemma handleActiveSet_duplicate_is_silent_witness :
  On fan6 = JBool (Boolean (JNum 1))
  /\ handleActiveSet "SN" 0 (JNum 1) fan6 = (fan6, [])
  /\ forall now' value' st', fst (handleActiveSet "SN" now' value' st') = st'.
Proof.
  split.
  - reflexivity.
  - apply (handleActiveSet_duplicate_is_silent "SN" 0 (JNum 1) fan6).
    reflexivity.
Defined.

(** A power request that differs from the cached power writes one frame. *)
Lemma handleActiveSet_change_is_sent
      (sn : string) (now : Z) (x : bool) (st : fanState) :
  On st = JBool (negb x) ->
  snd (handleActiveSet sn now (JBool x) st)
  = [ mkControl sn "control" [("poweron", JBool x)] now ].
Proof.
  intros H. unfold handleActiveSet. rewrite H. simpl.
  now destruct x.
Qed.

(** [setSwingMode] never changes the cache, and writes one frame per call
    without looking at the cached flag. *)
Lemma setSwingMode_always_sends
      (sn : string) (now : Z) (value : jvalue) (st : fanState) :
  setSwingMode sn now value st
  = (st, [ mkControl sn "control" [("shakehorizon", JBool (Boolean value))] now ]).
Proof. reflexivity. Qed.

(** C5, on the code.  Asked for the oscillation the cache already holds,
    [setSwingMode] still writes a control frame, where [handleActiveSet]
    writes none; the cache is left as it was. *)
Theorem setSwingMode_duplicate_is_sent :
  Swing fan6 = JBool false
  /\ setSwingMode "SN" 0 (JBool false) fan6
     = (fan6, [ mkControl "SN" "control" [("shakehorizon", JBool false)] 0 ])
  /\ handleActiveSet "SN" 0 (JBool true) fan6 = (fan6, []).
Proof.
  repeat split.
Qed.

(** ** Device to consumer *)

Lemma report_level_is_percent (level M : Z) :
  0 < M -> 0 <= level <= M -> 0 <= ceil_div (level * 100) M <= 100.
Proof.
  intros HM Hl. pose proof (ceil_div_bounds (level * 100) M HM). nia.
Qed.

(** The listener on a frame for this accessory, with one of the three update
    methods and a [reported] object. *)
Lemma listener_update (sn : string) (d : data) (reported : object) (st : fanState) :
  is_string (data_devicesn d) sn = true ->
  is_update (data_method d) = true ->
  data_reported d = Some reported ->
  listener sn (Parsed d) st = Return (apply_reported (data_method d) reported st).
Proof.
  intros Hsn Hm Hrep. unfold listener. now rewrite Hsn, Hm, Hrep.
Qed.

(** No frame changes the maximum level. *)
Lemma listener_MaxSpeed (sn : string) (message : MessageEvent) (st : fanState) :
  MaxSpeed (cache_of (listener sn message st)) = MaxSpeed st.
Proof.
  destruct message as [| | d]; simpl; try reflexivity.
  destruct (is_string (data_devicesn d) sn); [| reflexivity].
  destruct (is_update (data_method d)); [| reflexivity].
  destruct (data_reported d) as [[| [key v] rest] |]; try reflexivity.
  simpl.
  repeat match goal with
         | |- context [if ?b then _ else _] => destruct b
         end; reflexivity.
Qed.

(** C2.  On a frame for this accessory whose [reported] object has the one
    key windlevel: under the method "report" the cached speed becomes the
    ceiling of level * 100 / MaxSpeed and nothing else changes; under
    "control-report" and "control-reply" the cache is left as it was. *)
Theorem listener_windlevel_by_method
        (sn : string) (d : data) (v : jvalue) (st : fanState)
        (Hsn : is_string (data_devicesn d) sn = true)
        (Hrep : data_reported d = Some [("windlevel", v)])
        (HM : 0 < MaxSpeed st) :
  (data_method d = Some "report" ->
   exists c,
     listener sn (Parsed d) st = Return (set_Speed (Fin c) st)
     /\ Speed (cache_of (listener sn (Parsed d) st)) = Fin c
     /\ On (cache_of (listener sn (Parsed d) st)) = On st
     /\ Swing (cache_of (listener sn (Parsed d) st)) = Swing st
     /\ MaxSpeed (cache_of (listener sn (Parsed d) st)) = MaxSpeed st
     /\ (c - 1) * MaxSpeed st < toNumber v * 100 <= c * MaxSpeed st)
  /\ (data_method d = Some "control-report"
      \/ data_method d = Some "control-reply" ->
      listener sn (Parsed d) st = Return st
      /\ Speed (cache_of (listener sn (Parsed d) st)) = Speed st).
Proof.
  split.
  - intros Hm. exists (ceil_div (toNumber v * 100) (MaxSpeed st)).
    assert (Hup : is_update (data_method d) = true) by now rewrite Hm.
    assert (Hrun : listener sn (Parsed d) st
                   = Return (set_Speed
                               (Fin (ceil_div (toNumber v * 100) (MaxSpeed st)))
                               st)).
    { rewrite (listener_update sn d _ st Hsn Hup Hrep).
      rewrite Hm. simpl.
      destruct (Z.eqb_spec (MaxSpeed st) 0); [lia | reflexivity]. }
    rewrite Hrun. simpl.
    repeat split; try reflexivity; now apply ceil_div_bounds.
  - intros Hm.
    assert (Hup : is_update (data_method d) = true)
      by (destruct Hm as [-> | ->]; reflexivity).
    rewrite (listener_update sn d _ st Hsn Hup Hrep).
    destruct Hm as [-> | ->]; split; reflexivity.
Qed.

Lemma listener_windlevel_by_method_witness :
  is_string (data_devicesn (mkData (Some "SN") (Some "report")
                                   (Some [("windlevel", JNum 2)]))) "SN" = true
  /\ data_reported (mkData (Some "SN") (Some "report")
                           (Some [("windlevel", JNum 2)]))
     = Some [("windlevel", JNum 2)]
  /\ 0 < MaxSpeed fan6
  /\ listener "SN" (Parsed (mkData (Some "SN") (Some "report")
                                   (Some [("windlevel", JNum 2)]))) fan6
     = Return {| On := JBool true; Speed := Fin 34; Swing := JBool false;
                 MaxSpeed := 6 |}
  /\ Speed (cache_of
              (listener "SN" (Parsed (mkData (Some "SN") (Some "report")
                                             (Some [("windlevel", JNum 2)])))
                        fan6))
     = Fin 34.
Proof.
  split; [reflexivity | split; [reflexivity | split; [reflexivity |]]].
  destruct (listener_windlevel_by_method
              "SN" (mkData (Some "SN") (Some "report")
                           (Some [("windlevel", JNum 2)]))
              (JNum 2) fan6 eq_refl eq_refl eq_refl) as [Hreport _].
  destruct (Hreport eq_refl) as (c & Hrun & HSpeed & _ & _ & _ & Hc).
  simpl in Hc. assert (c = 34) by lia. subst c.
  split; [rewrite Hrun; reflexivity | exact HSpeed].
Defined.

(** The same frames under the two acknowledging methods, evaluated. *)
Example listener_control_reply_keeps_speed :
  listener "SN" (Parsed (mkData (Some "SN") (Some "control-reply")
                                (Some [("windlevel", JNum 2)]))) fan6
  = Return fan6.
Proof. reflexivity. Qed.

(** A frame whose reported level, if it has one, lies between 0 and a
    positive maximum level keeps a cached percent a percent. *)
Lemma listener_percent_preserved
      (sn : string) (message : MessageEvent) (st : fanState) :
  0 < MaxSpeed st ->
  is_percent (Speed st) = true ->
  level_within (MaxSpeed st) message = true ->
  is_percent (Speed (cache_of (listener sn message st))) = true.
Proof.
  intros HM Hst Hlevel.
  destruct message as [| | d]; simpl; try exact Hst.
  destruct (is_string (data_devicesn d) sn); [| exact Hst].
  destruct (is_update (data_method d)); [| exact Hst].
  simpl in Hlevel.
  destruct (data_reported d) as [[| [key v] rest] |]; try exact Hst.
  simpl.
  destruct (String.eqb key "poweron"); [exact Hst |].
  destruct (String.eqb key "windlevel").
  - destruct (is_string (data_method d) "report"); [| exact Hst].
    simpl. destruct (Z.eqb_spec (MaxSpeed st) 0); [lia |].
    apply andb_true_iff in Hlevel. destruct Hlevel as [H0 H1].
    apply Z.leb_le in H0. apply Z.leb_le in H1.
    pose proof (report_level_is_percent (toNumber v) (MaxSpeed st) HM
                                        (conj H0 H1)).
    simpl. apply andb_true_iff. split; apply Z.leb_le; lia.
  - destruct (String.eqb key "shakehorizon"); exact Hst.
Qed.

(** C7, as the code has it.  On a fan with a positive maximum level, a
    "report" frame for this accessory with windlevel first leaves in the
    cache the ceiling of level * 100 / MaxSpeed, whatever the cache held
    and whatever the level is: nothing is clamped.  That ceiling is a
    percent when the level lies between 0 and the maximum level, and is
    above 100 when the level is above the maximum level.  So a cached
    percent stays a percent under every frame whose reported level lies
    between 0 and the maximum level. *)
Theorem listener_keeps_percent
        (sn : string) (d : data) (v : jvalue) (rest : object) (st : fanState)
        (Hsn : is_string (data_devicesn d) sn = true)
        (Hm : data_method d = Some "report")
        (Hrep : data_reported d = Some (("windlevel", v) :: rest))
        (HM : 0 < MaxSpeed st) :
  (exists c,
      Speed (cache_of (listener sn (Parsed d) st)) = Fin c
      /\ (c - 1) * MaxSpeed st < toNumber v * 100 <= c * MaxSpeed st
      /\ (0 <= toNumber v <= MaxSpeed st -> 0 <= c <= 100)
      /\ (MaxSpeed st < toNumber v -> 100 < c))
  /\ (0 <= toNumber v <= MaxSpeed st ->
      is_percent (Speed (cache_of (listener sn (Parsed d) st))) = true)
  /\ (MaxSpeed st < toNumber v ->
      is_percent (Speed (cache_of (listener sn (Parsed d) st))) = false)
  /\ (forall message,
         is_percent (Speed st) = true ->
         level_within (MaxSpeed st) message = true ->
         is_percent (Speed (cache_of (listener sn message st))) = true).
Proof.
  assert (Hup : is_update (data_method d) = true) by now rewrite Hm.
  assert (Hrun : Speed (cache_of (listener sn (Parsed d) st))
                 = Fin (ceil_div (toNumber v * 100) (MaxSpeed st))).
  { rewrite (listener_update sn d _ st Hsn Hup Hrep).
    rewrite Hm. simpl.
    destruct (Z.eqb_spec (MaxSpeed st) 0); [lia | reflexivity]. }
  pose proof (ceil_div_bounds (toNumber v * 100) (MaxSpeed st) HM) as Hc.
  rewrite Hrun.
  split; [| split; [| split]].
  - exists (ceil_div (toNumber v * 100) (MaxSpeed st)).
    split; [reflexivity |]. split; [exact Hc |]. split; intros Hv; nia.
  - intros Hv. simpl. apply andb_true_iff. split; apply Z.leb_le; nia.
  - intros Hv. simpl. apply andb_false_iff. right. apply Z.leb_gt. nia.
  - intros message Hst Hlevel.
    now apply listener_percent_preserved.
Qed.

Lemma listener_keeps_percent_witness :
  is_string (data_devicesn (mkData (Some "SN") (Some "report")
                                   (Some [("windlevel", JNum 3)]))) "SN" = true
  /\ data_method (mkData (Some "SN") (Some "report")
                         (Some [("windlevel", JNum 3)])) = Some "report"
  /\ data_reported (mkData (Some "SN") (Some "report")
                           (Some [("windlevel", JNum 3)]))
     = Some [("windlevel", JNum 3)]
  /\ 0 < MaxSpeed (mkFanState (JBool true) (Fin 117) (JBool false) 6)
  /\ Speed (cache_of
              (listener "SN"
                        (Parsed (mkData (Some "SN") (Some "report")
                                        (Some [("windlevel", JNum 3)])))
                        (mkFanState (JBool true) (Fin 117) (JBool false) 6)))
     = Fin 50.
Proof.
  split; [reflexivity | split; [reflexivity | split; [reflexivity |
    split; [reflexivity |]]]].
  destruct (listener_keeps_percent
              "SN" (mkData (Some "SN") (Some "report")
                           (Some [("windlevel", JNum 3)]))
              (JNum 3) [] (mkFanState (JBool true) (Fin 117) (JBool false) 6)
              eq_refl eq_refl eq_refl eq_refl) as [(c & HSpeed & Hc & _) _].
  simpl in Hc. assert (c = 50) by lia. subst c. exact HSpeed.
Defined.

(** C7, as the claim has it, fails: a report of level 7 to a fan of six
    levels leaves 117 in the cache. *)
Lemma listener_report_above_max_not_clamped :
  listener "SN" (Parsed (mkData (Some "SN") (Some "report")
                                (Some [("windlevel", JNum 7)]))) fan6
  = Return (set_Speed (Fin 117) fan6)
  /\ is_percent
       (Speed (cache_of
                 (listener "SN"
                           (Parsed (mkData (Some "SN") (Some "report")
                                           (Some [("windlevel", JNum 7)])))
                           fan6))) = false.
Proof.
  split; reflexivity.
Qed.

(** C8.  A frame whose serial is not this accessory's is stepped over: the
    listener returns and every field of the cache is as before, whatever the
    frame's method and [reported] object are. *)
Theorem listener_ignores_other_serial
        (sn : string) (d : data) (st : fanState)
        (Hother : is_string (data_devicesn d) sn = false) :
  listener sn (Parsed d) st = Return st.
Proof.
  unfold listener. now rewrite Hother.
Qed.

Lemma listener_ignores_other_serial_witness :
  is_string (data_devicesn (mkData (Some "OTHER") (Some "report")
                                   (Some [("poweron", JBool false)]))) "SN"
  = false
  /\ listener "SN" (Parsed (mkData (Some "OTHER") (Some "report")
                                   (Some [("poweron", JBool false)]))) fan6
     = Return fan6.
Proof.
  split.
  - reflexivity.
  - apply (listener_ignores_other_serial
             "SN" (mkData (Some "OTHER") (Some "report")
                          (Some [("poweron", JBool false)])) fan6).
    reflexivity.
Defined.

(** C9, as the claim has it, fails: the listener has no handler for
    exceptions, so text that does not parse and an update for this accessory
    without a [reported] object both end the listener with an exception. *)
Lemma listener_throws_on_malformed :
  listener "SN" Unparseable fan6 = Throw SyntaxError fan6
  /\ listener "SN" (Parsed (mkData (Some "SN") (Some "report") None)) fan6
     = Throw TypeError fan6
  /\ returns (listener "SN" (Parsed (mkData (Some "SN") (Some "report") None))
                       fan6) = false.
Proof.
  repeat split.
Qed.

(** A frame that is not malformed never ends the listener with an
    exception. *)
Lemma listener_returns_on_wellformed
      (sn : string) (message : MessageEvent) (st : fanState) :
  malformed message = false -> returns (listener sn message st) = true.
Proof.
  destruct message as [| | d]; simpl; try discriminate.
  intros Hr.
  destruct (is_string (data_devicesn d) sn); [| reflexivity].
  destruct (is_update (data_method d)); [| reflexivity].
  destruct (data_reported d); [reflexivity | discriminate].
Qed.

(** An exception leaves the cache as the listener found it. *)
Lemma listener_throw_keeps_cache
      (sn : string) (message : MessageEvent) (st st' : fanState) (e : exn) :
  listener sn message st = Throw e st' -> st' = st.
Proof.
  destruct message as [| | d]; simpl; try (intros [= _ <-]; reflexivity).
  destruct (is_string (data_devicesn d) sn); [| discriminate].
  destruct (is_update (data_method d)); [| discriminate].
  destruct (data_reported d); [discriminate | intros [= _ <-]; reflexivity].
Qed.

(** C9, as the code has it.  A malformed frame never changes the cache.  It
    is dropped without an exception when it is an object for another serial
    or with a method that is not an update; text that does not parse, the
    value null, and an update for this accessory without a [reported] object
    end the listener with an exception. *)
Theorem listener_malformed_frame
        (sn : string) (message : MessageEvent) (st : fanState)
        (Hbad : malformed message = true) :
  cache_of (listener sn message st) = st
  /\ returns (listener sn message st) = negb (raises sn message).
Proof.
  destruct message as [| | d]; simpl in *; try (split; reflexivity).
  destruct (is_string (data_devicesn d) sn); [| split; reflexivity].
  destruct (is_update (data_method d)); [| split; reflexivity].
  destruct (data_reported d); [discriminate | split; reflexivity].
Qed.

Lemma listener_malformed_frame_witness :
  malformed (Parsed (mkData (Some "SN") (Some "bind") None)) = true
  /\ cache_of (listener "SN" (Parsed (mkData (Some "SN") (Some "bind") None))
                        fan6) = fan6
  /\ returns (listener "SN" (Parsed (mkData (Some "SN") (Some "bind") None))
                       fan6)
     = negb (raises "SN" (Parsed (mkData (Some "SN") (Some "bind") None))).
Proof.
  split.
  - reflexivity.
  - apply (listener_malformed_frame
             "SN" (Parsed (mkData (Some "SN") (Some "bind") None)) fan6).
    reflexivity.
Defined.

(** C10.  On a frame for this accessory with an update method, only the
    first property of the [reported] object is read: the listener does what
    it would do had the object that property alone, and a field of the
    cache that the first key does not name keeps its value, whichever keys
    follow. *)
Theorem listener_applies_first_key_only
        (sn : string) (d : data) (key : string) (v : jvalue) (rest : object)
        (st : fanState)
        (Hsn : is_string (data_devicesn d) sn = true)
        (Hm : is_update (data_method d) = true)
        (Hrep : data_reported d = Some ((key, v) :: rest)) :
  listener sn (Parsed d) st
  = listener sn (Parsed (mkData (data_devicesn d) (data_method d)
                                (Some [(key, v)]))) st
  /\ (key <> "poweron" -> On (cache_of (listener sn (Parsed d) st)) = On st)
  /\ (key <> "windlevel" ->
      Speed (cache_of (listener sn (Parsed d) st)) = Speed st)
  /\ (key <> "shakehorizon" ->
      Swing (cache_of (listener sn (Parsed d) st)) = Swing st)
  /\ MaxSpeed (cache_of (listener sn (Parsed d) st)) = MaxSpeed st.
Proof.
  rewrite (listener_update sn d _ st Hsn Hm Hrep).
  split.
  - now rewrite (listener_update
                   sn (mkData (data_devicesn d) (data_method d) (Some [(key, v)]))
                   [(key, v)] st Hsn Hm eq_refl).
  - simpl.
    destruct (String.eqb_spec key "poweron") as [-> | Hp];
      [repeat split; congruence |].
    destruct (String.eqb_spec key "windlevel") as [-> | Hw].
    + destruct (is_string (data_method d) "report"); repeat split; congruence.
    + destruct (String.eqb_spec key "shakehorizon") as [-> | Hs];
        repeat split; congruence.
Qed.

Lemma listener_applies_first_key_only_witness :
  is_string (data_devicesn
               (mkData (Some "SN") (Some "report")
                       (Some [("windlevel", JNum 3); ("poweron", JBool false);
                              ("shakehorizon", JBool true)]))) "SN" = true
  /\ is_update (data_method
                  (mkData (Some "SN") (Some "report")
                          (Some [("windlevel", JNum 3); ("poweron", JBool false);
                                 ("shakehorizon", JBool true)]))) = true
  /\ data_reported
       (mkData (Some "SN") (Some "report")
               (Some [("windlevel", JNum 3); ("poweron", JBool false);
                      ("shakehorizon", JBool true)]))
     = Some [("windlevel", JNum 3); ("poweron", JBool false);
             ("shakehorizon", JBool true)]
  /\ listener "SN"
              (Parsed (mkData (Some "SN") (Some "report")
                              (Some [("windlevel", JNum 3);
                                     ("poweron", JBool false);
                                     ("shakehorizon", JBool true)]))) fan6
     = listener "SN"
                (Parsed (mkData (Some "SN") (Some "report")
                                (Some [("windlevel", JNum 3)]))) fan6.
Proof.
  split; [reflexivity | split; [reflexivity | split; [reflexivity |]]].
  apply (listener_applies_first_key_only
           "SN"
           (mkData (Some "SN") (Some "report")
                   (Some [("windlevel", JNum 3); ("poweron", JBool false);
                          ("shakehorizon", JBool true)]))
           "windlevel" (JNum 3)
           [("poweron", JBool false); ("shakehorizon", JBool true)]
           fan6 eq_refl eq_refl eq_refl).
Defined.

(** The frame of the witness, evaluated: power and oscillation, reported
    second and third, stay as cached. *)
Example listener_second_key_not_applied :
  listener "SN"
           (Parsed (mkData (Some "SN") (Some "report")
                           (Some [("windlevel", JNum 3); ("poweron", JBool false);
                                  ("shakehorizon", JBool true)]))) fan6
  = Return {| On := JBool true; Speed := Fin 50; Swing := JBool false;
              MaxSpeed := 6 |}.
Proof. reflexivity. Qed.

(** * Further properties of the handlers *)

(** ** The level scale and the range tests *)

Ltac snap_cases :=
  unfold snap;
  repeat match goal with
         | |- context [if ?b then _ else _] => destruct b eqn:?
         end;
  try lia.

Lemma ceil_div_exact (k d : Z) : 0 < d -> ceil_div (k * d) d = k.
Proof.
  intros Hd. symmetry. apply ceil_div_unique; lia.
Qed.

Lemma percent_level_bounds (M value : Z) :
  0 < M -> 0 <= value <= 100 -> 0 <= ceil_div (value * M) 100 <= M.
Proof.
  intros HM Hv.
  pose proof (ceil_div_bounds (value * M) 100 ltac:(lia)). nia.
Qed.

Lemma snap_outside (c : Z) : c <= 10 \/ 100 < c -> snap c = c.
Proof.
  intros Hc. snap_cases.
Qed.

Lemma level_percent_level_eq (M level : Z) :
  0 < M <= 100 ->
  ceil_div (ceil_div (level * 100) M * M) 100
  = if ((level * 100) mod M =? 0)%Z then level else level + 1.
Proof.
  intros HM.
  pose proof (ceil_div_bounds (level * 100) M ltac:(lia)) as Hp.
  set (p := ceil_div (level * 100) M) in *.
  symmetry. apply ceil_div_unique; [lia |].
  destruct (Z.eqb_spec ((level * 100) mod M) 0) as [E | E].
  - assert (Hq : level * 100 = M * (level * 100 / M))
      by (pose proof (Z.div_mod (level * 100) M ltac:(lia)); lia).
    assert (p = level * 100 / M)
      by (unfold p; symmetry; apply ceil_div_unique; nia).
    nia.
  - assert (p * M <> level * 100).
    { intros H. apply E. rewrite <- H. apply Z.mod_mul. lia. }
    nia.
Qed.

(** On a fan with a positive number of levels, a percent between 0 and 100
    is scaled to a level between 0 and the maximum, and a larger percent
    never gives a smaller level. *)
Theorem level_of_percent_range
        (M value value' : Z)
        (HM : 0 < M) (Hv : 0 <= value <= value') (Hv' : value' <= 100) :
  0 <= ceil_div (value * M) 100 <= ceil_div (value' * M) 100
  /\ ceil_div (value' * M) 100 <= M.
Proof.
  pose proof (percent_level_bounds M value HM ltac:(lia)).
  pose proof (percent_level_bounds M value' HM ltac:(lia)).
  assert (ceil_div (value * M) 100 <= ceil_div (value' * M) 100)
    by (apply ceil_div_mono; nia).
  lia.
Qed.

Lemma level_of_percent_range_witness :
  0 < 6 /\ 0 <= 17 <= 50 /\ 50 <= 100
  /\ 0 <= ceil_div (17 * 6) 100 <= ceil_div (50 * 6) 100
  /\ ceil_div (50 * 6) 100 <= 6.
Proof.
  split; [lia | split; [lia | split; [lia |]]].
  apply (level_of_percent_range 6 17 50); lia.
Defined.

(** The range tests are idempotent and keep the order of levels. *)
Theorem snap_idempotent_monotone (a b : Z) :
  snap (snap a) = snap a /\ (a <= b -> snap a <= snap b).
Proof.
  split.
  - snap_cases.
  - intros Hab. snap_cases.
Qed.

(** A level above 10 and up to 100 is replaced by the multiple of 20 at
    distance at most 10; every other level is kept. *)
Theorem snap_bands (c : Z) :
  (10 < c <= 100 ->
   In (snap c) [20; 40; 60; 80; 100] /\ -10 <= snap c - c < 10)
  /\ (c <= 10 \/ 100 < c -> snap c = c).
Proof.
  split.
  - intros Hc. simpl. snap_cases.
  - apply snap_outside.
Qed.

(** ** Requests for a speed *)

(** On a fan with at most ten levels, a frame written for a percent between
    0 and 100 carries the scaled level itself, which lies between 1 and the
    maximum level, and sets the power on. *)
Theorem setRotationSpeed_level_in_scale
        (sn : string) (now value : Z) (st : fanState) (m : ControlMessage)
        (HM : 0 < MaxSpeed st <= 10) (Hv : 0 <= value <= 100)
        (Hm : In m (snd (setRotationSpeed sn now value st))) :
  get "windlevel" (params m) = Some (JNum (ceil_div (value * MaxSpeed st) 100))
  /\ 1 <= ceil_div (value * MaxSpeed st) 100 <= MaxSpeed st
  /\ get "poweron" (params m) = Some (JBool true).
Proof.
  pose proof (percent_level_bounds (MaxSpeed st) value
                                   ltac:(lia) ltac:(lia)) as Hr.
  assert (Hs : snap (ceil_div (value * MaxSpeed st) 100)
               = ceil_div (value * MaxSpeed st) 100)
    by (apply snap_outside; lia).
  destruct (setRotationSpeed_sent sn now value st) as [E | [Hnz E]];
    rewrite E in Hm; simpl in Hm; [contradiction |].
  destruct Hm as [<- | []]. simpl. rewrite Hs in *.
  repeat split; lia.
Qed.

Lemma setRotationSpeed_level_in_scale_witness :
  0 < MaxSpeed fan6 <= 10 /\ 0 <= 50 <= 100
  /\ In (mkControl "SN" "control"
                   [("poweron", JBool true); ("windlevel", JNum 3)] 0)
        (snd (setRotationSpeed "SN" 0 50 fan6))
  /\ 1 <= ceil_div (50 * MaxSpeed fan6) 100 <= MaxSpeed fan6.
Proof.
  split; [simpl; lia | split; [lia | split; [simpl; left; reflexivity |]]].
  apply (setRotationSpeed_level_in_scale
           "SN" 0 50 fan6
           (mkControl "SN" "control"
                      [("poweron", JBool true); ("windlevel", JNum 3)] 0)).
  - simpl. lia.
  - lia.
  - simpl. left. reflexivity.
Defined.

(** On a fan with more than ten and fewer than twenty levels, a request for
    100 percent, made while the cache holds a percent, writes level 20: a
    level the fan does not have. *)
Theorem setRotationSpeed_level_off_scale
        (sn : string) (now : Z) (st : fanState)
        (HM : 10 < MaxSpeed st < 20)
        (Hst : is_percent (Speed st) = true) :
  setRotationSpeed sn now 100 st
  = (set_Speed (Fin 100) st,
     [ {| devicesn := sn; method := "control";
          params := [("poweron", JBool true); ("windlevel", JNum 20)];
          timestamp := now |} ]).
Proof.
  unfold setRotationSpeed.
  replace (100 * MaxSpeed st) with (MaxSpeed st * 100) by lia.
  rewrite ceil_div_exact by lia.
  assert (Hs : snap (MaxSpeed st) = 20) by snap_cases.
  rewrite Hs.
  destruct (Speed st) as [p | | |]; simpl in Hst; try discriminate.
  simpl.
  pose proof (percent_level_bounds (MaxSpeed st) p) as Hr.
  destruct (Z.eqb_spec (ceil_div (p * MaxSpeed st) 100) 20) as [E | E];
    [lia | reflexivity].
Qed.

Lemma setRotationSpeed_level_off_scale_witness :
  10 < MaxSpeed (mkFanState (JBool true) (Fin 50) (JBool false) 12) < 20
  /\ is_percent (Speed (mkFanState (JBool true) (Fin 50) (JBool false) 12))
     = true
  /\ snd (setRotationSpeed "SN" 0 100
                           (mkFanState (JBool true) (Fin 50) (JBool false) 12))
     = [ mkControl "SN" "control"
                   [("poweron", JBool true); ("windlevel", JNum 20)] 0 ].
Proof.
  split; [simpl; lia | split; [reflexivity |]].
  rewrite (setRotationSpeed_level_off_scale
             "SN" 0 (mkFanState (JBool true) (Fin 50) (JBool false) 12)
             ltac:(simpl; lia) eq_refl).
  reflexivity.
Defined.

(** A request for 0 percent writes nothing and leaves 0 as the cached
    speed, whatever the cache held and whatever the maximum level is; the
    other fields keep their values.  On a fan with a positive number of
    levels it is the only request from 0 upwards whose level is 0. *)
Theorem setRotationSpeed_zero_percent
        (sn : string) (now : Z) (st : fanState) :
  snd (setRotationSpeed sn now 0 st) = []
  /\ Speed (fst (setRotationSpeed sn now 0 st)) = Fin 0
  /\ On (fst (setRotationSpeed sn now 0 st)) = On st
  /\ Swing (fst (setRotationSpeed sn now 0 st)) = Swing st
  /\ MaxSpeed (fst (setRotationSpeed sn now 0 st)) = MaxSpeed st
  /\ (forall value,
         0 < MaxSpeed st -> 0 <= value ->
         (snap (ceil_div (value * MaxSpeed st) 100) = 0 <-> value = 0)).
Proof.
  split; [| repeat split].
  - unfold setRotationSpeed. simpl.
    now destruct (negb _).
  - rewrite snap_zero.
    pose proof (ceil_div_bounds (value * MaxSpeed st) 100 ltac:(lia)). nia.
  - intros ->. reflexivity.
Qed.

Lemma setRotationSpeed_zero_percent_witness :
  setRotationSpeed "SN" 0 0 fan6
  = ({| On := JBool true; Speed := Fin 0; Swing := JBool false;
        MaxSpeed := 6 |}, [])
  /\ setRotationSpeed "SN" 0 0
                      (mkFanState (JNum 1) NaN (JBool true) (-3))
     = ({| On := JNum 1; Speed := Fin 0; Swing := JBool true;
           MaxSpeed := -3 |}, []).
Proof.
  split.
  - destruct (setRotationSpeed_zero_percent "SN" 0 fan6)
      as (Hsent & HSpeed & _).
    destruct (setRotationSpeed "SN" 0 0 fan6) as [st' sent] eqn:E.
    simpl in Hsent, HSpeed. subst sent.
    inversion E. reflexivity.
  - destruct (setRotationSpeed_zero_percent
                "SN" 0 (mkFanState (JNum 1) NaN (JBool true) (-3)))
      as (Hsent & HSpeed & _).
    destruct (setRotationSpeed "SN" 0 0
                               (mkFanState (JNum 1) NaN (JBool true) (-3)))
      as [st' sent] eqn:E.
    simpl in Hsent, HSpeed. subst sent.
    inversion E. reflexivity.
Defined.

(** The same request made twice in a row: the second call is silent exactly
    when the range tests leave the scaled level alone.  The cached level it
    compares with is not passed through the range tests. *)
Theorem setRotationSpeed_twice
        (sn : string) (now now' value : Z) (st : fanState) :
  snd (setRotationSpeed sn now' value (fst (setRotationSpeed sn now value st)))
  = []
  <-> snap (ceil_div (value * MaxSpeed st) 100)
      = ceil_div (value * MaxSpeed st) 100.
Proof.
  unfold setRotationSpeed. simpl.
  generalize (ceil_div (value * MaxSpeed st) 100). intros c.
  destruct (Z.eqb_spec c (snap c)) as [E | E]; simpl.
  - split; [intros _; now symmetry | reflexivity].
  - destruct (Z.eqb_spec (snap c) 0) as [Z0 | Z0]; simpl.
    + apply (proj1 (snap_zero c)) in Z0. exfalso. apply E. subst c. reflexivity.
    + split; [discriminate | intros H; exfalso; apply E; now symmetry].
Qed.

(** On a fan of 100 levels the request for 50 percent is written again each
    time it is made. *)
Example setRotationSpeed_twice_resent :
  snd (setRotationSpeed "SN" 1 50
         (fst (setRotationSpeed "SN" 0 50
                 (mkFanState (JBool true) (Fin 10) (JBool false) 100))))
  = [ mkControl "SN" "control"
                [("poweron", JBool true); ("windlevel", JNum 40)] 1 ].
Proof. reflexivity. Qed.

(** With no levels at all, no request for a speed is ever written. *)
Theorem setRotationSpeed_no_levels
        (sn : string) (now value : Z) (st : fanState)
        (HM : MaxSpeed st = 0) :
  setRotationSpeed sn now value st = (set_Speed (Fin value) st, []).
Proof.
  unfold setRotationSpeed. rewrite HM.
  replace (value * 0) with 0 by lia. simpl.
  now destruct (negb _).
Qed.

Lemma setRotationSpeed_no_levels_witness :
  MaxSpeed (mkFanState (JBool true) (Fin 50) (JBool false) 0) = 0
  /\ setRotationSpeed "SN" 0 70
                      (mkFanState (JBool true) (Fin 50) (JBool false) 0)
     = (mkFanState (JBool true) (Fin 70) (JBool false) 0, []).
Proof.
  split; [reflexivity |].
  apply (setRotationSpeed_no_levels
           "SN" 0 70 (mkFanState (JBool true) (Fin 50) (JBool false) 0)).
  reflexivity.
Defined.

(** ** Requests for the power *)

Lemma strict_eq_true (a b : jvalue) : strict_eq a b = true <-> a = b.
Proof.
  destruct a as [x | x], b as [y | y]; simpl.
  - rewrite Bool.eqb_true_iff. split; congruence.
  - split; discriminate.
  - split; discriminate.
  - rewrite Z.eqb_eq. split; congruence.
Qed.

(** [handleActiveSet] writes a frame exactly when the cached power is not
    the boolean of the requested value, and then the frame carries that
    boolean; a cached power that is not a boolean never matches. *)
Theorem handleActiveSet_sends_iff
        (sn : string) (now : Z) (value : jvalue) (st : fanState) :
  (On st = JBool (Boolean value)
   /\ snd (handleActiveSet sn now value st) = [])
  \/ (On st <> JBool (Boolean value)
      /\ snd (handleActiveSet sn now value st)
         = [ {| devicesn := sn; method := "control";
                params := [("poweron", JBool (Boolean value))];
                timestamp := now |} ]).
Proof.
  unfold handleActiveSet.
  destruct (strict_eq (On st) (JBool (Boolean value))) eqn:E; simpl.
  - left. split; [now apply strict_eq_true | reflexivity].
  - right. split; [| reflexivity].
    intros H. apply strict_eq_true in H. congruence.
Qed.

(** ** Frames from the device *)

(** A report of the power is stored under each of the three update methods,
    is what [handleActiveGet] returns afterwards, and makes the request for
    that same power silent. *)
Theorem listener_poweron_then_request
        (sn : string) (d : data) (x : bool) (rest : object) (st : fanState)
        (now : Z)
        (Hsn : is_string (data_devicesn d) sn = true)
        (Hm : is_update (data_method d) = true)
        (Hrep : data_reported d = Some (("poweron", JBool x) :: rest)) :
  listener sn (Parsed d) st = Return (set_On (JBool x) st)
  /\ handleActiveGet (cache_of (listener sn (Parsed d) st)) = JBool x
  /\ snd (handleActiveSet sn now (JBool x)
                          (cache_of (listener sn (Parsed d) st))) = []
  /\ snd (handleActiveSet sn now (JBool (negb x))
                          (cache_of (listener sn (Parsed d) st)))
     = [ mkControl sn "control" [("poweron", JBool (negb x))] now ].
Proof.
  rewrite (listener_update sn d _ st Hsn Hm Hrep). simpl.
  unfold handleActiveSet. simpl.
  rewrite Bool.eqb_reflx. simpl.
  repeat split. now destruct x.
Qed.

Lemma listener_poweron_then_request_witness :
  is_string (data_devicesn (mkData (Some "SN") (Some "control-reply")
                                   (Some [("poweron", JBool false)]))) "SN"
  = true
  /\ is_update (data_method (mkData (Some "SN") (Some "control-reply")
                                    (Some [("poweron", JBool false)]))) = true
  /\ data_reported (mkData (Some "SN") (Some "control-reply")
                           (Some [("poweron", JBool false)]))
     = Some [("poweron", JBool false)]
  /\ listener "SN" (Parsed (mkData (Some "SN") (Some "control-reply")
                                   (Some [("poweron", JBool false)]))) fan6
     = Return (set_On (JBool false) fan6).
Proof.
  split; [reflexivity | split; [reflexivity | split; [reflexivity |]]].
  apply (listener_poweron_then_request
           "SN" (mkData (Some "SN") (Some "control-reply")
                        (Some [("poweron", JBool false)]))
           false [] fan6 0 eq_refl eq_refl eq_refl).
Defined.

(** A frame changes at most one of the power, the speed and the
    oscillation, and never the maximum level. *)
Theorem listener_one_field
        (sn : string) (message : MessageEvent) (st : fanState) :
  cache_of (listener sn message st) = st
  \/ (exists v, cache_of (listener sn message st) = set_On v st)
  \/ (exists n, cache_of (listener sn message st) = set_Speed n st)
  \/ (exists v, cache_of (listener sn message st) = set_Swing v st).
Proof.
  destruct message as [| | d]; simpl; try (now left).
  destruct (is_string (data_devicesn d) sn); [| now left].
  destruct (is_update (data_method d)); [| now left].
  destruct (data_reported d) as [[| [key v] rest] |]; try (now left).
  simpl.
  destruct (String.eqb key "poweron"); [right; left; now exists v |].
  destruct (String.eqb key "windlevel").
  - destruct (is_string (data_method d) "report"); [| now left].
    right; right; left. now eexists.
  - destruct (String.eqb key "shakehorizon"); [| now left].
    right; right; right. now exists v.
Qed.

(** An update for this accessory whose [reported] object is empty, or
    starts with a key other than the three known ones, is stepped over
    without an exception. *)
Theorem listener_unknown_key
        (sn : string) (d : data) (reported : object) (st : fanState)
        (Hsn : is_string (data_devicesn d) sn = true)
        (Hm : is_update (data_method d) = true)
        (Hrep : data_reported d = Some reported)
        (Hkey : first_key_in ["poweron"; "windlevel"; "shakehorizon"] reported
                = false) :
  listener sn (Parsed d) st = Return st.
Proof.
  rewrite (listener_update sn d _ st Hsn Hm Hrep).
  destruct reported as [| [key v] rest]; [reflexivity |].
  unfold first_key_in in Hkey. simpl in Hkey. simpl.
  destruct (String.eqb key "poweron"); [discriminate |].
  destruct (String.eqb key "windlevel"); [discriminate |].
  destruct (String.eqb key "shakehorizon"); [discriminate |].
  simpl. reflexivity.
Qed.

Lemma listener_unknown_key_witness :
  is_string (data_devicesn (mkData (Some "SN") (Some "report")
                                   (Some [("mode", JNum 2);
                                          ("poweron", JBool false)]))) "SN"
  = true
  /\ is_update (data_method (mkData (Some "SN") (Some "report")
                                    (Some [("mode", JNum 2);
                                           ("poweron", JBool false)]))) = true
  /\ data_reported (mkData (Some "SN") (Some "report")
                           (Some [("mode", JNum 2); ("poweron", JBool false)]))
     = Some [("mode", JNum 2); ("poweron", JBool false)]
  /\ first_key_in ["poweron"; "windlevel"; "shakehorizon"]
                  [("mode", JNum 2); ("poweron", JBool false)] = false
  /\ listener "SN" (Parsed (mkData (Some "SN") (Some "report")
                                   (Some [("mode", JNum 2);
                                          ("poweron", JBool false)]))) fan6
     = Return fan6.
Proof.
  split; [reflexivity | split; [reflexivity | split; [reflexivity |
    split; [reflexivity |]]]].
  apply (listener_unknown_key
           "SN" (mkData (Some "SN") (Some "report")
                        (Some [("mode", JNum 2); ("poweron", JBool false)]))
           [("mode", JNum 2); ("poweron", JBool false)] fan6
           eq_refl eq_refl eq_refl eq_refl).
Defined.

(** With no levels at all, a report of a level leaves a speed in the cache
    that is not a number of percents. *)
Theorem listener_report_no_levels
        (sn : string) (d : data) (v : jvalue) (rest : object) (st : fanState)
        (Hsn : is_string (data_devicesn d) sn = true)
        (Hm : data_method d = Some "report")
        (Hrep : data_reported d = Some (("windlevel", v) :: rest))
        (HM : MaxSpeed st = 0) :
  In (Speed (cache_of (listener sn (Parsed d) st))) [NaN; PosInf; NegInf].
Proof.
  assert (Hup : is_update (data_method d) = true) by now rewrite Hm.
  rewrite (listener_update sn d _ st Hsn Hup Hrep).
  rewrite Hm. simpl. rewrite HM. simpl.
  destruct (0 <? toNumber v * 100)%Z; [right; left; reflexivity |].
  destruct (toNumber v * 100 <? 0)%Z; [right; right; left; reflexivity |].
  left; reflexivity.
Qed.

Lemma listener_report_no_levels_witness :
  is_string (data_devicesn (mkData (Some "SN") (Some "report")
                                   (Some [("windlevel", JNum 2)]))) "SN" = true
  /\ data_method (mkData (Some "SN") (Some "report")
                         (Some [("windlevel", JNum 2)])) = Some "report"
  /\ data_reported (mkData (Some "SN") (Some "report")
                           (Some [("windlevel", JNum 2)]))
     = Some [("windlevel", JNum 2)]
  /\ MaxSpeed (mkFanState (JBool true) (Fin 50) (JBool false) 0) = 0
  /\ In (Speed (cache_of
                  (listener "SN"
                            (Parsed (mkData (Some "SN") (Some "report")
                                            (Some [("windlevel", JNum 2)])))
                            (mkFanState (JBool true) (Fin 50) (JBool false) 0))))
        [NaN; PosInf; NegInf].
Proof.
  split; [reflexivity | split; [reflexivity | split; [reflexivity |
    split; [reflexivity |]]]].
  apply (listener_report_no_levels
           "SN" (mkData (Some "SN") (Some "report")
                        (Some [("windlevel", JNum 2)]))
           (JNum 2) [] (mkFanState (JBool true) (Fin 50) (JBool false) 0)
           eq_refl eq_refl eq_refl eq_refl).
Defined.

(** ** From a level to a percent and back *)

(** The percent cached for a reported level, scaled back as
    [setRotationSpeed] scales the cache, is the reported level when the
    maximum level divides 100 times the level, and one level more when it
    does not. *)
Theorem level_percent_level
        (M level : Z) (HM : 0 < M <= 100) :
  level <= ceil_div (ceil_div (level * 100) M * M) 100 <= level + 1
  /\ (ceil_div (ceil_div (level * 100) M * M) 100 = level
      <-> (level * 100) mod M = 0).
Proof.
  rewrite (level_percent_level_eq M level HM).
  destruct (Z.eqb_spec ((level * 100) mod M) 0) as [E | E].
  - split; [lia | tauto].
  - split; [lia |]. split; [lia | contradiction].
Qed.

Lemma level_percent_level_witness :
  0 < 6 <= 100
  /\ 1 <= ceil_div (ceil_div (1 * 100) 6 * 6) 100 <= 1 + 1
  /\ (ceil_div (ceil_div (1 * 100) 6 * 6) 100 = 1 <-> (1 * 100) mod 6 = 0).
Proof.
  split; [lia |].
  apply (level_percent_level 6 1). lia.
Defined.

(** After the device has reported a level that the maximum level does not
    divide evenly into percents, a request whose level is the next one up
    is taken for no change: nothing is written, and the requested percent
    is cached. *)
Theorem listener_report_then_request_lost
        (sn : string) (d : data) (level : Z) (rest : object) (st : fanState)
        (now value : Z)
        (Hsn : is_string (data_devicesn d) sn = true)
        (Hm : data_method d = Some "report")
        (Hrep : data_reported d = Some (("windlevel", JNum level) :: rest))
        (HM : 0 < MaxSpeed st <= 100)
        (Hdiv : ((level * 100) mod MaxSpeed st =? 0)%Z = false)
        (Hv : snap (ceil_div (value * MaxSpeed st) 100) = level + 1) :
  setRotationSpeed sn now value (cache_of (listener sn (Parsed d) st))
  = (set_Speed (Fin value) st, []).
Proof.
  assert (Hup : is_update (data_method d) = true) by now rewrite Hm.
  rewrite (listener_update sn d _ st Hsn Hup Hrep).
  rewrite Hm. simpl.
  destruct (Z.eqb_spec (MaxSpeed st) 0) as [E | _]; [lia |].
  unfold setRotationSpeed. simpl.
  rewrite (level_percent_level_eq (MaxSpeed st) level HM), Hdiv, Hv.
  rewrite Z.eqb_refl. reflexivity.
Qed.

Lemma listener_report_then_request_lost_witness :
  is_string (data_devicesn (mkData (Some "SN") (Some "report")
                                   (Some [("windlevel", JNum 1)]))) "SN" = true
  /\ data_method (mkData (Some "SN") (Some "report")
                         (Some [("windlevel", JNum 1)])) = Some "report"
  /\ data_reported (mkData (Some "SN") (Some "report")
                           (Some [("windlevel", JNum 1)]))
     = Some [("windlevel", JNum 1)]
  /\ 0 < MaxSpeed fan6 <= 100
  /\ ((1 * 100) mod MaxSpeed fan6 =? 0)%Z = false
  /\ snap (ceil_div (33 * MaxSpeed fan6) 100) = 1 + 1
  /\ setRotationSpeed "SN" 0 33
       (cache_of (listener "SN"
                           (Parsed (mkData (Some "SN") (Some "report")
                                           (Some [("windlevel", JNum 1)])))
                           fan6))
     = (set_Speed (Fin 33) fan6, []).
Proof.
  split; [reflexivity | split; [reflexivity | split; [reflexivity |
    split; [simpl; lia | split; [reflexivity | split; [reflexivity |]]]]]].
  apply (listener_report_then_request_lost
           "SN" (mkData (Some "SN") (Some "report")
                        (Some [("windlevel", JNum 1)]))
           1 [] fan6 0 33 eq_refl eq_refl eq_refl).
  - simpl. lia.
  - reflexivity.
  - reflexivity.
Defined.

(** ** The constructor *)

(** The cache the constructor builds holds, whatever the snapshot and the
    maximum level are, the snapshot's power, the maximum level it was
    given, and the snapshot's oscillation when the fan has one and false
    when it has none.  Its speed is the ceiling of level * 100 / maxSpeed
    when the maximum level is positive, a percent when moreover the level
    lies between 0 and the maximum level, and not a number of percents when
    the maximum level is 0. *)
Theorem constructor_cache (maxSpeed : Z) (state : snapshot) :
  On (constructor maxSpeed state) = poweron state
  /\ MaxSpeed (constructor maxSpeed state) = maxSpeed
  /\ Swing (constructor maxSpeed state)
     = match shakehorizon state with
       | Some swing => swing
       | None => JBool false
       end
  /\ (0 < maxSpeed ->
      exists c,
        Speed (constructor maxSpeed state) = Fin c
        /\ (c - 1) * maxSpeed < toNumber (windlevel state) * 100 <= c * maxSpeed
        /\ (0 <= toNumber (windlevel state) <= maxSpeed ->
            0 <= c <= 100
            /\ is_percent (Speed (constructor maxSpeed state)) = true))
  /\ (maxSpeed = 0 ->
      In (Speed (constructor maxSpeed state)) [NaN; PosInf; NegInf]).
Proof.
  assert (HSpeed : Speed (constructor maxSpeed state)
                   = Math_ceil_quot (Fin (toNumber (windlevel state) * 100))
                                    maxSpeed)
    by (unfold constructor; now destruct (shakehorizon state)).
  split; [unfold constructor; now destruct (shakehorizon state) |].
  split; [unfold constructor; now destruct (shakehorizon state) |].
  split; [unfold constructor; now destruct (shakehorizon state) |].
  rewrite HSpeed. split.
  - intros HM.
    pose proof (ceil_div_bounds (toNumber (windlevel state) * 100) maxSpeed HM)
      as Hc.
    exists (ceil_div (toNumber (windlevel state) * 100) maxSpeed).
    simpl. destruct (Z.eqb_spec maxSpeed 0); [lia |].
    split; [reflexivity |]. split; [exact Hc |].
    intros Hlevel. split; [nia |].
    simpl. apply andb_true_iff. split; apply Z.leb_le; nia.
  - intros ->. simpl.
    destruct (0 <? toNumber (windlevel state) * 100)%Z;
      [right; left; reflexivity |].
    destruct (toNumber (windlevel state) * 100 <? 0)%Z;
      [right; right; left; reflexivity |].
    left; reflexivity.
Qed.

Lemma constructor_cache_witness :
  On (constructor 6 (mkSnapshot (JBool true) (JNum 2) None)) = JBool true
  /\ MaxSpeed (constructor 6 (mkSnapshot (JBool true) (JNum 2) None)) = 6
  /\ Swing (constructor 6 (mkSnapshot (JBool true) (JNum 2) None))
     = JBool false
  /\ Speed (constructor 6 (mkSnapshot (JBool true) (JNum 2) None)) = Fin 34
  /\ In (Speed (constructor 0 (mkSnapshot (JBool false) (JNum 2)
                                          (Some (JBool true)))))
        [NaN; PosInf; NegInf].
Proof.
  destruct (constructor_cache 6 (mkSnapshot (JBool true) (JNum 2) None))
    as (HOn & HMax & HSwing & HSpeed & _).
  split; [exact HOn | split; [exact HMax | split; [exact HSwing | split]]].
  - destruct (HSpeed ltac:(lia)) as (c & Hc & Hb & _).
    simpl in Hb. assert (c = 34) by lia. subst c. exact Hc.
  - apply (constructor_cache 0 (mkSnapshot (JBool false) (JNum 2)
                                           (Some (JBool true)))).
    reflexivity.
Defined.

(** The constructor and the listener scale a level alike: a report that
    repeats the level, or the power, of the snapshot the cache was built
    from leaves that cache as it is, whatever the maximum level. *)
Theorem constructor_then_same_report
        (sn : string) (maxSpeed : Z) (state : snapshot) :
  listener sn (Parsed (mkData (Some sn) (Some "report")
                              (Some [("windlevel", windlevel state)])))
           (constructor maxSpeed state)
  = Return (constructor maxSpeed state)
  /\ listener sn (Parsed (mkData (Some sn) (Some "report")
                                 (Some [("poweron", poweron state)])))
              (constructor maxSpeed state)
     = Return (constructor maxSpeed state).
Proof.
  unfold listener, constructor. simpl. rewrite String.eqb_refl.
  destruct (shakehorizon state); split; reflexivity.
Qed.

(** ** Sequences of calls *)

Lemma step_frames (sn : string) (c : call) (st : fanState) (m : ControlMessage) :
  In m (snd (step sn c st)) ->
  devicesn m = sn /\ method m = "control" /\ control_params (params m).
Proof.
  destruct c as [now value | now value | now value | message]; cbn [step].
  - unfold handleActiveSet. destruct (negb _); simpl; [| contradiction].
    intros [<- | []]. repeat split. left. now eexists.
  - destruct (setRotationSpeed_sent sn now value st) as [E | [Hnz E]];
      rewrite E; simpl; [contradiction |].
    intros [<- | []]. repeat split. right; left. eexists. split; [exact Hnz |].
    reflexivity.
  - simpl. intros [<- | []]. repeat split. right; right. now eexists.
  - simpl. contradiction.
Qed.

(** Whatever the handlers are asked and whatever frames arrive, in any
    order, every frame written on the socket names this accessory, has the
    method "control", and carries the power alone, the oscillation alone, or
    the power set on with a level that is not 0. *)
Theorem run_frames
        (sn : string) (calls : list call) (st : fanState) (m : ControlMessage)
        (Hm : In m (snd (run sn calls st))) :
  devicesn m = sn /\ method m = "control" /\ control_params (params m).
Proof.
  revert st Hm. induction calls as [| c rest IH]; intros st Hm; simpl in Hm.
  - contradiction.
  - apply in_app_or in Hm. destruct Hm as [Hm | Hm].
    + exact (step_frames sn c st m Hm).
    + exact (IH _ Hm).
Qed.

Lemma run_frames_witness :
  In (mkControl "SN" "control" [("shakehorizon", JBool true)] 2)
     (snd (run "SN"
               [RotationSpeedSet 1 50;
                Incoming (Parsed (mkData (Some "SN") (Some "report")
                                         (Some [("poweron", JBool false)])));
                SwingModeSet 2 (JNum 1)]
               fan6))
  /\ devicesn (mkControl "SN" "control" [("shakehorizon", JBool true)] 2)
     = "SN".
Proof.
  split.
  - simpl. right. left. reflexivity.
  - apply (run_frames
             "SN"
             [RotationSpeedSet 1 50;
              Incoming (Parsed (mkData (Some "SN") (Some "report")
                                       (Some [("poweron", JBool false)])));
              SwingModeSet 2 (JNum 1)]
             fan6
             (mkControl "SN" "control" [("shakehorizon", JBool true)] 2)).
    simpl. right. left. reflexivity.
Defined.

Lemma listener_flags (sn : string) (message : MessageEvent) (a b : fanState) :
  same_flags a b ->
  same_flags (cache_of (listener sn message a)) (cache_of (listener sn message b)).
Proof.
  intros (HOn & HSw & HMax). unfold same_flags.
  destruct message as [| | d]; simpl; try (repeat split; assumption).
  destruct (is_string (data_devicesn d) sn); [| repeat split; assumption].
  destruct (is_update (data_method d)); [| repeat split; assumption].
  destruct (data_reported d) as [[| [key v] rest] |];
    try (repeat split; assumption).
  simpl.
  repeat match goal with
         | |- context [if ?t then _ else _] => destruct t
         end; simpl; repeat split; assumption.
Qed.

Lemma step_flags (sn : string) (c : call) (a b : fanState) :
  same_flags a b ->
  same_flags (fst (step sn c a))
             (if is_incoming c then fst (step sn c b) else b).
Proof.
  intros H. destruct c as [now value | now value | now value | message]; simpl.
  - unfold handleActiveSet. now destruct (negb _).
  - exact H.
  - exact H.
  - now apply listener_flags.
Qed.

(** The cached power, oscillation and maximum level after any sequence of
    calls are those the incoming frames alone would leave: no request from
    HomeKit, for the power, the speed or the oscillation, has a part in
    them. *)
Theorem run_flags_from_frames
        (sn : string) (calls : list call) (st : fanState) :
  same_flags (fst (run sn calls st))
             (fst (run sn (filter is_incoming calls) st))
  /\ MaxSpeed (fst (run sn calls st)) = MaxSpeed st.
Proof.
  assert (Hgen : forall a b, same_flags a b ->
                             same_flags (fst (run sn calls a))
                                        (fst (run sn (filter is_incoming calls) b))).
  { induction calls as [| c rest IH]; intros a b Hab; simpl; [exact Hab |].
    pose proof (step_flags sn c a b Hab) as Hstep.
    destruct (is_incoming c); simpl; now apply IH. }
  split.
  - apply Hgen. repeat split.
  - clear Hgen. revert st. induction calls as [| c rest IH]; intros st; simpl;
      [reflexivity |].
    rewrite IH.
    destruct c as [now value | now value | now value | message]; simpl.
    + unfold handleActiveSet. now destruct (negb _).
    + reflexivity.
    + reflexivity.
    + apply listener_MaxSpeed.
Qed.

(** Frames that name another serial, or none, can be taken out of any
    sequence of calls: the cache and the frames written are the same. *)
Theorem run_without_other_serials
        (sn : string) (calls : list call) (st : fanState) :
  run sn (filter (fun c => negb (for_other sn c)) calls) st = run sn calls st.
Proof.
  revert st. induction calls as [| c rest IH]; intros st; simpl;
    [reflexivity |].
  destruct (for_other sn c) eqn:Hc; simpl.
  - destruct c as [| | | [| | d]]; simpl in Hc; try discriminate.
    apply negb_true_iff in Hc. simpl. rewrite Hc. simpl.
    rewrite IH. now destruct (run sn rest st).
  - now rewrite IH.
Qed.
